(** * BYOH host agent: certificate bootstrap (agent/registration/csr.go)

    A shallow embedding of the registration package of the bring-your-own-host
    agent and the properties of its enrollment flow.

    The package is glue around library calls (client-go's [keyutil], [csr]
    and [clientcmd], Go's [crypto/x509] and [encoding/pem]).  The embedding
    keeps the two apart:

    - the functions of [csr.go] are programs over an explicit vocabulary of
      library calls ([Event]); a program lists, in order, the calls the Go
      code makes and what it does with each answer;
    - the libraries are a handler that answers the calls against a [World]
      (files, the API server's signing requests, the random source).

    [LoadRESTClientConfig] only forwards to [clientcmd] and is left out. *)

From Stdlib Require Import Strings.Ascii Strings.Byte.
From stdpp Require Import base strings gmap list pretty.

Set Default Proof Using "Type".

(** ** Go values *)

Abbreviation bytes := (list Byte.byte).

#[export] Instance byte_eq_dec : EqDecision Byte.byte := Byte.byte_eq_dec.

(** A non-nil Go [error]; all that is ever done with one here is to print it
    with [%v], so a value is its message.  The [error] interface, which can be
    nil, is [option error]. *)
Record error := errorString { Error : string }.

(** The answer of a library function with a trailing [err] result: the Go
    convention is that the other results are meaningful only when [err] is
    nil, and the code below never reads them otherwise. *)
Inductive result (A : Type) : Type :=
| Ok (a : A)
| Err (err : error).
Arguments Ok {A} a.
Arguments Err {A} err.

(** [fmt.Sprintf] for the verbs the package uses, [%s] and [%v], on operands
    already rendered as strings.  A verb without an operand prints as Go
    prints it. *)
Fixpoint Sprintf (format : string) (a : list string) : string :=
  match format with
  | EmptyString => EmptyString
  | String c EmptyString => String c EmptyString
  | String c (String v rest as tail) =>
      if (Ascii.eqb c "%"%char &&
          (Ascii.eqb v "s"%char || Ascii.eqb v "v"%char))%bool then
        match a with
        | x :: a' => x +:+ Sprintf rest a'
        | [] => "%!" +:+ String v "(MISSING)" +:+ Sprintf rest []
        end
      else String c (Sprintf tail a)
  end.

Definition Errorf (format : string) (a : list string) : error :=
  errorString (Sprintf format a).

(** [time.Duration] is an int64 count of nanoseconds. *)
Definition int64 (z : Z) : Z := ((z + 2 ^ 63) mod 2 ^ 64 - 2 ^ 63)%Z.
Definition Duration := Z.
Definition Second : Duration := 1000000000%Z.
Definition Duration_mul (a b : Duration) : Duration := int64 (a * b)%Z.

(** ** Constants of the package *)

Definition KeySize : Z := 2048%Z.
Definition ExpirationSeconds : Z := (86400 * 365)%Z.
Definition ByohCSROrg : string := "byoh:hosts".
Definition ByohCSRCNFormat : string := "byoh:host:%s".
Definition ByohCSRNameFormat : string := "byoh-csr-%s".
Definition CSRApprovalTimeout : Duration := Duration_mul 3600%Z Second.
Definition TmpPrivateKey : string := "byoh-client.key.tmp".

(** ** Library types *)

(** [k8s.io/apimachinery/pkg/types]. *)
Definition UID := string.

(** [k8s.io/api/certificates/v1]. *)
Definition KeyUsage := string.
Definition UsageClientAuth : KeyUsage := "client auth".
Definition KubeAPIServerClientSignerName : string :=
  "kubernetes.io/kube-apiserver-client".

(** [crypto/x509/pkix] and [crypto/x509]: the fields the package fills in;
    every other field of the template keeps its zero value. *)
Record pkix_Name := {
  CommonName : string;
  Organization : list string;
}.

Record x509_CertificateRequest := {
  Subject : pkix_Name;
}.

(** [encoding/pem]. *)
Record pem_Block := {
  Type_ : string;
  Bytes : bytes;
}.

(** [k8s.io/client-go/util/cert]. *)
Definition CertificateRequestBlockType : string := "CERTIFICATE REQUEST".

(** [k8s.io/client-go/rest]: the fields of [rest.Config] that are read. *)
Record restclient_Config := {
  Host : string;
  Insecure : bool;
  CAFile : string;
  CAData : bytes;
}.

(** [k8s.io/client-go/tools/clientcmd/api]: the fields that are written. *)
Record Cluster := {
  Server : string;
  InsecureSkipTLSVerify : bool;
  CertificateAuthority : string;
  CertificateAuthorityData : bytes;
}.

Record AuthInfo := {
  ClientCertificate : string;
  ClientKey : string;
}.

Record KubeContext := {
  Context_Cluster : string;
  Context_AuthInfo : string;
  Context_Namespace : string;
}.

Record Config := {
  Clusters : gmap string Cluster;
  AuthInfos : gmap string AuthInfo;
  Contexts : gmap string KubeContext;
  CurrentContext : string;
}.

(** What the model cannot compute and therefore takes as given: the types
    behind two Go interfaces and the pure codecs. *)
Class Lib := {
  (** the dynamic type behind [privKey interface{}] *)
  crypto_PrivateKey : Type;
  (** [clientset.Interface] *)
  clientset_Interface : Type;
  (** [keyutil.ParsePrivateKeyPEM] *)
  ParsePrivateKeyPEM : bytes → result crypto_PrivateKey;
  (** [pem.EncodeToMemory] *)
  pem_EncodeToMemory : pem_Block → bytes;
}.

(** ** Library calls with an effect *)

(** An [io.Reader]; the only one around is the global [crypto/rand.Reader]. *)
Inductive io_Reader : Type := rand_Reader.

Inductive Event `{Lib} : Type → Type :=
| LoadOrGenerateKeyFile (keyPath : string) : Event (result (bytes * bool))
| CreateCertificateRequest (rand : io_Reader)
    (template : x509_CertificateRequest) (priv : crypto_PrivateKey) :
    Event (result bytes)
| RequestCertificate (client : clientset_Interface) (csrData : bytes)
    (name signerName : string) (requestedDuration : option Duration)
    (usages : list KeyUsage) (privateKey : crypto_PrivateKey) :
    Event (result (string * UID))
| klog_Errorf (msg : string) : Event unit
| WriteToFile (config : Config) (filename : string) : Event (option error).

(** A program: the calls made, each followed by what is done with the
    answer. *)
Inductive Prog `{Lib} (R : Type) : Type :=
| Ret (r : R)
| Call {X : Type} (e : Event X) (k : X → Prog R).
Arguments Ret {_ R} r.
Arguments Call {_ R X} e k.

Fixpoint bind `{Lib} {A B : Type} (f : A → Prog B) (p : Prog A) : Prog B :=
  match p with
  | Ret a => f a
  | Call e k => Call e (λ x, bind f (k x))
  end.

#[export] Instance Prog_ret `{Lib} : MRet Prog := λ A a, Ret a.
#[export] Instance Prog_bind `{Lib} : MBind Prog := λ A B f p, bind f p.

Definition call `{Lib} {X : Type} (e : Event X) : Prog X := Call e Ret.

(** ** The package *)

Record ByohCSR `{Lib} := {
  BootstrapClient : clientset_Interface;
  PrivateKey : bytes;
}.

Definition generateCSR `{Lib} (hostname : string) (privKey : crypto_PrivateKey) :
    Prog (result bytes) :=
  let csrTemplate :=
    {| Subject := {| CommonName := Sprintf ByohCSRCNFormat [hostname];
                     Organization := [ByohCSROrg] |} |} in
  r ← call (CreateCertificateRequest rand_Reader csrTemplate privKey);
  match r with
  | Err err => mret (Err err)
  | Ok csrData =>
      let csrPemBlock :=
        {| Type_ := CertificateRequestBlockType; Bytes := csrData |} in
      mret (Ok (pem_EncodeToMemory csrPemBlock))
  end.

(** The method has a pointer receiver and assigns its [PrivateKey] field: the
    receiver after the call is returned next to the three Go results. *)
Definition RequestBYOHClientCert `{Lib} (bcsr : ByohCSR) (hostname : string) :
    Prog (ByohCSR * (string * UID * option error)) :=
  if String.eqb hostname "" then
    mret (bcsr, ("", "", Some (Errorf "hostname is not valid" [])))
  else
    r ← call (LoadOrGenerateKeyFile TmpPrivateKey);
    match r with
    | Err err => mret (bcsr, ("", "", Some err))
    | Ok (keyData, _) =>
        match ParsePrivateKeyPEM keyData with
        | Err err =>
            mret (bcsr, ("", "", Some (Errorf
              "invalid private key for certificate request: %v" [Error err])))
        | Ok privateKey =>
            let bcsr :=
              {| BootstrapClient := BootstrapClient bcsr;
                 PrivateKey := keyData |} in
            r ← generateCSR hostname privateKey;
            match r with
            | Err err =>
                _ ← call (klog_Errorf (Sprintf
                  "error generating csr %s, err=%v" [hostname; Error err]));
                mret (bcsr, ("", "", Some err))
            | Ok csrData =>
                let certTimeToExpire := Duration_mul ExpirationSeconds Second in
                r ← call (RequestCertificate (BootstrapClient bcsr)
                            csrData
                            (Sprintf ByohCSRNameFormat [hostname])
                            KubeAPIServerClientSignerName
                            (Some certTimeToExpire)
                            [UsageClientAuth]
                            privateKey);
                match r with
                | Err err => mret (bcsr, ("", "", Some err))
                | Ok (reqName, reqUID) => mret (bcsr, (reqName, reqUID, None))
                end
            end
        end
    end.

(** The [clientcmdapi.Config] literal of [WriteKubeconfigFromBootstrapping]. *)
Definition kubeconfigData (bootstrapClientConfig : restclient_Config)
    (certData keyData : string) : Config :=
  let caFile := CAFile bootstrapClientConfig in
  let caData :=
    if String.eqb caFile "" then CAData bootstrapClientConfig else [] in
  {| Clusters := {[ "default-cluster" :=
       {| Server := Host bootstrapClientConfig;
          InsecureSkipTLSVerify := Insecure bootstrapClientConfig;
          CertificateAuthority := caFile;
          CertificateAuthorityData := caData |} ]};
     AuthInfos := {[ "default-auth" :=
       {| ClientCertificate := certData;
          ClientKey := keyData |} ]};
     Contexts := {[ "default-context" :=
       {| Context_Cluster := "default-cluster";
          Context_AuthInfo := "default-auth";
          Context_Namespace := "default" |} ]};
     CurrentContext := "default-context" |}.

Definition WriteKubeconfigFromBootstrapping `{Lib}
    (bootstrapClientConfig : restclient_Config)
    (kubeconfigPath certData keyData : string) : Prog (option error) :=
  call (WriteToFile (kubeconfigData bootstrapClientConfig certData keyData)
          kubeconfigPath).

(** ** Running a program *)

(** One library call and its answer, as it appears in the record of a run. *)
Inductive Obs `{Lib} : Type :=
| Called {X : Type} (e : Event X) (x : X).

Definition Handler `{Lib} (W : Type) : Type := ∀ X, Event X → W → X * W.

(** [exec h p w] runs [p] from [w], every call answered by [h]; it gives the
    result, the final world and the calls in the order they were made. *)
Fixpoint exec `{Lib} {W R : Type} (h : Handler W) (p : Prog R) (w : W) :
    R * W * list Obs :=
  match p with
  | Ret r => (r, w, [])
  | Call e k =>
      let '(x, w1) := h _ e w in
      let '(r, w2, log) := exec h (k x) w1 in
      (r, w2, Called e x :: log)
  end.

(** What a call asks for, when it is a signing call or a submission. *)
Definition signed_template `{Lib} (o : Obs) : option x509_CertificateRequest :=
  match o with
  | Called (CreateCertificateRequest _ template _) _ => Some template
  | _ => None
  end.

Record Submission := {
  sub_csrData : bytes;
  sub_name : string;
  sub_signerName : string;
  sub_requestedDuration : option Duration;
  sub_usages : list KeyUsage;
}.

Definition submission `{Lib} (o : Obs) : option Submission :=
  match o with
  | Called (RequestCertificate _ csrData name signerName d usages _) _ =>
      Some {| sub_csrData := csrData; sub_name := name;
              sub_signerName := signerName; sub_requestedDuration := d;
              sub_usages := usages |}
  | _ => None
  end.

(** ** The libraries *)

(** Bytes read from [rand.Reader] by one operation. *)
Definition entropy := nat.

(** How the operating system can fail the write of a file: at the open,
    before anything is written (a missing directory that cannot be made, a
    name that is a directory, no permission), or in the write, after some of
    the bytes (no space left, an I/O error). *)
Inductive os_fault : Type :=
| OpenFails (err : error)
| WriteFails (written : nat) (err : error).

(** The cryptography, the serializer and the operating system behind the
    library calls. *)
Class Backend `{Lib} := {
  (** [keyutil.MakeEllipticPrivateKeyPEM] *)
  MakeEllipticPrivateKeyPEM : entropy → result bytes;
  (** [x509.CreateCertificateRequest], on what it reads from the reader it
      is given; a randomized signature scheme, such as the ECDSA of the keys
      [keyutil] generates, makes the result depend on it *)
  x509_CreateCertificateRequest :
    entropy → x509_CertificateRequest → crypto_PrivateKey → result bytes;
  (** [clientcmd.Write] *)
  clientcmd_Write : Config → result bytes;
  (** what the operating system does to the write of these bytes to this
      file name by [clientcmd.WriteToFile]: nothing ([None]) or a failure *)
  os_WriteFile_fault : string → bytes → option os_fault;
}.

(** The CA-side resource: a [CertificateSigningRequest] object of the API
    server. *)
Record CertificateSigningRequest := {
  ObjectMeta_Name : string;
  ObjectMeta_UID : UID;
  Spec_Request : bytes;
  Spec_SignerName : string;
  Spec_RequestedDuration : option Duration;
  Spec_Usages : list KeyUsage;
}.

Record World := {
  (** regular files by path *)
  files : gmap string bytes;
  (** signing requests held by the API server, by name *)
  requests : gmap string CertificateSigningRequest;
  (** objects the API server has created so far; the next UID comes from it *)
  created : nat;
  (** whether the API server answers *)
  reachable : bool;
  (** how much of [rand.Reader] has been read *)
  rand_read : entropy;
  (** lines logged through [klog] *)
  klog : list string;
}.

(** *** Files *)

(** The steps of a write that a reader of the file system can tell apart. *)
Inductive fsop : Type :=
| OpenTrunc (name : string)
| WriteByte (name : string) (b : Byte.byte).

Definition fs_step (fs : gmap string bytes) (op : fsop) : gmap string bytes :=
  match op with
  | OpenTrunc name => <[name := []]> fs
  | WriteByte name b => alter (λ c, c ++ [b]) name fs
  end.

(** [os.WriteFile name data perm]: open with [O_WRONLY|O_CREATE|O_TRUNC],
    write, close.  The file is written in place. *)
Definition os_WriteFile_ops (name : string) (data : bytes) : list fsop :=
  OpenTrunc name :: (WriteByte name <$> data).

Definition os_WriteFile (name : string) (data : bytes)
    (fs : gmap string bytes) : gmap string bytes :=
  foldl fs_step fs (os_WriteFile_ops name data).

(** The file system when a write is cut short after [n] steps. *)
Definition interrupted (n : nat) (ops : list fsop)
    (fs : gmap string bytes) : gmap string bytes :=
  foldl fs_step fs (take n ops).

(** *** keyutil *)

Definition verifyKeyData `{Lib} (data : bytes) : bool :=
  match data with
  | [] => false
  | _ => match ParsePrivateKeyPEM data with Ok _ => true | Err _ => false end
  end.

Definition set_files (fs : gmap string bytes) (w : World) : World :=
  {| files := fs; requests := requests w; created := created w;
     reachable := reachable w; rand_read := rand_read w; klog := klog w |}.

Definition read_rand (w : World) : World :=
  {| files := files w; requests := requests w; created := created w;
     reachable := reachable w; rand_read := S (rand_read w);
     klog := klog w |}.

(** [keyutil.LoadOrGenerateKeyFile] of client-go, which is not part of this
    repository; its documentation reads: LoadOrGenerateKeyFile looks for a
    key in the file at the given path.  If it can't find one, it will
    generate a new key and store it there.  It reads the file and returns its
    bytes when they verify; any other outcome of the read than
    file-not-found, a file that does not verify included, is reported as an
    error; only when the file is not found is a key generated and written
    (with [os.WriteFile], mode 0600).  Files of the model can always be read
    and written. *)
Definition keyutil_LoadOrGenerateKeyFile `{Backend} (keyPath : string)
    (w : World) : result (bytes * bool) * World :=
  match files w !! keyPath with
  | Some loadedData =>
      if verifyKeyData loadedData then (Ok (loadedData, false), w)
      else (Err (Errorf "error loading key from %s: %v" [keyPath; "<nil>"]), w)
  | None =>
      match MakeEllipticPrivateKeyPEM (rand_read w) with
      | Err err =>
          (Err (Errorf "error generating key: %v" [Error err]), read_rand w)
      | Ok generatedData =>
          (Ok (generatedData, true),
           set_files (os_WriteFile keyPath generatedData (files w))
             (read_rand w))
      end
  end.

(** *** csr *)

Definition newUID (n : nat) : UID := "uid-" +:+ pretty n.

(** Modelled from the spec: [csr.RequestCertificate] of client-go and the API
    server behind it are not part of this repository.  The spec (4.3 and 6)
    gives the contract: the CA service offers create-or-get by name; a request
    whose name already exists is reused, not duplicated, and the caller gets
    the existing resource's name and ID; creation fails when the service
    cannot be reached. *)
Definition csr_RequestCertificate (csrData : bytes) (name signerName : string)
    (requestedDuration : option Duration) (usages : list KeyUsage)
    (w : World) : result (string * UID) * World :=
  if reachable w then
    match requests w !! name with
    | Some req => (Ok (ObjectMeta_Name req, ObjectMeta_UID req), w)
    | None =>
        let req := {| ObjectMeta_Name := name;
                      ObjectMeta_UID := newUID (created w);
                      Spec_Request := csrData;
                      Spec_SignerName := signerName;
                      Spec_RequestedDuration := requestedDuration;
                      Spec_Usages := usages |} in
        (Ok (name, newUID (created w)),
         {| files := files w; requests := <[name := req]> (requests w);
            created := S (created w); reachable := reachable w;
            rand_read := rand_read w; klog := klog w |})
    end
  else
    (Err (Errorf "cannot create certificate signing request: %v"
            ["connection refused"]), w).

(** *** clientcmd *)

(** The steps of [os.WriteFile] that the operating system lets happen: all
    of them, none when the open fails (as it always does on the empty name),
    or the open and the first bytes when the write fails. *)
Definition os_WriteFile_done (fault : option os_fault) (name : string)
    (data : bytes) : list fsop :=
  if String.eqb name "" then []
  else match fault with
       | None => os_WriteFile_ops name data
       | Some (OpenFails _) => []
       | Some (WriteFails written _) =>
           take (S written) (os_WriteFile_ops name data)
       end.

(** The error [os.WriteFile] returns. *)
Definition os_WriteFile_error (fault : option os_fault) (name : string) :
    option error :=
  if String.eqb name "" then
    Some (errorString "open : no such file or directory")
  else match fault with
       | None => None
       | Some (OpenFails err) => Some err
       | Some (WriteFails _ err) => Some err
       end.

(** [clientcmd.WriteToFile] of client-go, which is not part of this
    repository: it serializes the config, returning the serializer's error
    if there is one, makes the directory of the file name if it is missing,
    and hands the bytes to [os.WriteFile] on the file name it was given,
    returning its error.  A directory that cannot be made counts as a failed
    open: nothing is written. *)
Definition clientcmd_WriteToFile_ops `{Backend} (config : Config)
    (filename : string) : list fsop :=
  match clientcmd_Write config with
  | Err _ => []
  | Ok content =>
      os_WriteFile_done (os_WriteFile_fault filename content) filename content
  end.

Definition clientcmd_WriteToFile `{Backend} (config : Config)
    (filename : string) (w : World) : option error * World :=
  match clientcmd_Write config with
  | Err err => (Some err, w)
  | Ok content =>
      let fault := os_WriteFile_fault filename content in
      (os_WriteFile_error fault filename,
       set_files (foldl fs_step (files w)
                    (os_WriteFile_done fault filename content)) w)
  end.

(** *** All of them *)

Definition clientgo `{Backend} : Handler World :=
  λ X e,
    match e in Event X return World → X * World with
    | LoadOrGenerateKeyFile keyPath => keyutil_LoadOrGenerateKeyFile keyPath
    | CreateCertificateRequest rand_Reader template priv => λ w,
        (x509_CreateCertificateRequest (rand_read w) template priv,
         read_rand w)
    | RequestCertificate _ csrData name signerName requestedDuration usages _ =>
        csr_RequestCertificate csrData name signerName requestedDuration usages
    | klog_Errorf msg => λ w,
        (tt, {| files := files w; requests := requests w;
                created := created w; reachable := reachable w;
                rand_read := rand_read w; klog := klog w ++ [msg] |})
    | WriteToFile config filename => clientcmd_WriteToFile config filename
    end.

(** ** A fake of the libraries

    An instance small enough to run: keys and requests are readable text.
    Signing reads the random source, as ECDSA signing does. *)
Module fake.

Definition text (s : string) : bytes := String.list_byte_of_string s.

Definition hasPrefix (p data : bytes) : bool :=
  bool_decide (take (length p) data = p).

Definition parse (data : bytes) : result bytes :=
  if hasPrefix (text "KEY:") data then Ok (drop 4 data)
  else Err (errorString
    "data does not contain a valid RSA or ECDSA private key").

Definition encode (b : pem_Block) : bytes :=
  text ("-----BEGIN " +:+ Type_ b +:+ "-----") ++ Bytes b ++
  text ("-----END " +:+ Type_ b +:+ "-----").

#[export] Instance lib : Lib := {|
  crypto_PrivateKey := bytes;
  clientset_Interface := string;
  ParsePrivateKeyPEM := parse;
  pem_EncodeToMemory := encode;
|}.

Definition genkey (r : entropy) : result bytes :=
  Ok (text ("KEY:" +:+ pretty r)).

Definition sign (r : entropy) (template : x509_CertificateRequest)
    (priv : bytes) : result bytes :=
  match priv with
  | [] => Err (errorString
      "x509: certificate private key does not implement crypto.Signer")
  | _ => Ok (text ("CN=" +:+ CommonName (Subject template) +:+ ";key=") ++
             priv ++ text (";sig=" +:+ pretty r))
  end.

Definition yaml (config : Config) : result bytes :=
  Ok (text ("current-context: " +:+ CurrentContext config)).

#[export] Instance backend : Backend := {|
  MakeEllipticPrivateKeyPEM := genkey;
  x509_CreateCertificateRequest := sign;
  clientcmd_Write := yaml;
  os_WriteFile_fault := λ _ _, None;
|}.

(** The same on a disk that fills up after eight bytes of a write. *)
Definition disk_full : Backend := {|
  MakeEllipticPrivateKeyPEM := genkey;
  x509_CreateCertificateRequest := sign;
  clientcmd_Write := yaml;
  os_WriteFile_fault := λ name _,
    Some (WriteFails 8 (errorString
      ("write " +:+ name +:+ ": no space left on device")));
|}.

Definition world0 : World :=
  {| files := ∅; requests := ∅; created := 0; reachable := true;
     rand_read := 7; klog := [] |}.

Definition agent : ByohCSR :=
  {| BootstrapClient := "https://mgmt:6443"; PrivateKey := [] |}.

(** The first enrollment of "node-1" on a fresh host, and what it leaves. *)
Definition run1 : ByohCSR * (string * UID * option error) * World * list Obs :=
  exec clientgo (RequestBYOHClientCert agent "node-1") world0.

Definition agent1 : ByohCSR := run1.1.1.1.
Definition world1 : World := run1.1.2.
Definition log1 : list Obs := run1.2.

(** A host whose key file holds something that is not a key. *)
Definition corrupt : World :=
  set_files {[ TmpPrivateKey := text "garbage" ]} world0.

(** A host with a kubeconfig already in place, and a bootstrap config. *)
Definition kubeconfig : string := "/root/.byoh/config".

Definition installed : World :=
  set_files {[ kubeconfig := text "old" ]} world0.

Definition bootstrap : restclient_Config :=
  {| Host := "https://mgmt:6443"; Insecure := false;
     CAFile := ""; CAData := text "CA" |}.

End fake.

(** ** Reading a run *)

Definition is_Ok {A : Type} (r : result A) : Prop :=
  match r with Ok _ => True | Err _ => False end.

(** The templates signed and the submissions made, in order. *)
Definition signings `{Lib} (log : list Obs) : list x509_CertificateRequest :=
  omap signed_template log.

Definition submissions `{Lib} (log : list Obs) : list Submission :=
  omap submission log.

(** The template [generateCSR] fills in for a host. *)
Definition csrTemplate (hostname : string) : x509_CertificateRequest :=
  {| Subject := {| CommonName := "byoh:host:" +:+ hostname;
                   Organization := ["byoh:hosts"] |} |}.

(** The request [RequestBYOHClientCert] submits for a host. *)
Definition enrollment `{Lib} (bcsr : ByohCSR) (hostname : string)
    (csrData : bytes) (privateKey : crypto_PrivateKey) :
    Event (result (string * UID)) :=
  RequestCertificate (BootstrapClient bcsr) csrData
    ("byoh-csr-" +:+ hostname) "kubernetes.io/kube-apiserver-client"
    (Some 31536000000000000%Z) ["client auth"] privateKey.

(** What the method needs from the libraries about the key file, seen
    through [key_file]: a successful [LoadOrGenerateKeyFile] returns the bytes
    the file then holds, and signing and submitting leave the file alone. *)
Definition keeps_key_file `{Lib} {W : Type} (h : Handler W)
    (key_file : W → option bytes) : Prop :=
  (∀ w keyData gen w1,
     h _ (LoadOrGenerateKeyFile TmpPrivateKey) w = (Ok (keyData, gen), w1) →
     key_file w1 = Some keyData)
  ∧ (∀ template priv w,
       key_file (h _ (CreateCertificateRequest rand_Reader template priv)
                   w).2 =
       key_file w)
  ∧ (∀ client csrData name signerName d usages privateKey w,
       key_file (h _ (RequestCertificate client csrData name signerName d
                        usages privateKey) w).2 = key_file w).

(** The error a library call answered, when it failed. *)
Definition failure `{Lib} (o : Obs) : option error :=
  match o with
  | Called e x =>
      match e in Event X return X → option error with
      | LoadOrGenerateKeyFile _ =>
          λ x, match x with Err err => Some err | Ok _ => None end
      | CreateCertificateRequest _ _ _ =>
          λ x, match x with Err err => Some err | Ok _ => None end
      | RequestCertificate _ _ _ _ _ _ _ =>
          λ x, match x with Err err => Some err | Ok _ => None end
      | klog_Errorf _ => λ _, None
      | WriteToFile _ _ => λ x, x
      end x
  end.

(** The path a call loads the key from, the line it logs, and the client,
    the key and the answer of a submission. *)
Definition loaded_path `{Lib} (o : Obs) : option string :=
  match o with
  | Called (LoadOrGenerateKeyFile keyPath) _ => Some keyPath
  | _ => None
  end.

Definition logged `{Lib} (o : Obs) : option string :=
  match o with
  | Called (klog_Errorf msg) _ => Some msg
  | _ => None
  end.

Definition submitted `{Lib} (o : Obs) :
    option (clientset_Interface * crypto_PrivateKey * result (string * UID)) :=
  match o with
  | Called e x =>
      match e in Event X
        return X → option (clientset_Interface * crypto_PrivateKey *
                           result (string * UID)) with
      | RequestCertificate client _ _ _ _ _ privateKey =>
          λ x, Some (client, privateKey, x)
      | _ => λ _, None
      end x
  end.

(** The key and the answer of a signing call. *)
Definition signed `{Lib} (o : Obs) :
    option (crypto_PrivateKey * result bytes) :=
  match o with
  | Called e x =>
      match e in Event X
        return X → option (crypto_PrivateKey * result bytes) with
      | CreateCertificateRequest _ _ priv => λ x, Some (priv, x)
      | _ => λ _, None
      end x
  end.

(** * Properties *)

(** ** Formatting *)

Lemma append_nil_r (s : string) : s +:+ "" = s.
Proof.
  induction s as [|c s IH]; [done|].
  change (String c (s +:+ "") = String c s). by rewrite IH.
Qed.

Lemma Sprintf_CN (hostname : string) :
  Sprintf ByohCSRCNFormat [hostname] = "byoh:host:" +:+ hostname.
Proof.
  transitivity ("byoh:host:" +:+ (hostname +:+ "")); [done|].
  by rewrite append_nil_r.
Qed.

Lemma Sprintf_Name (hostname : string) :
  Sprintf ByohCSRNameFormat [hostname] = "byoh-csr-" +:+ hostname.
Proof.
  transitivity ("byoh-csr-" +:+ (hostname +:+ "")); [done|].
  by rewrite append_nil_r.
Qed.

Example Sprintf_node1 :
  Sprintf ByohCSRNameFormat ["node-1"] = "byoh-csr-node-1"
  ∧ Sprintf ByohCSRCNFormat ["node-1"] = "byoh:host:node-1"
  ∧ Sprintf "error generating csr %s, err=%v" ["node-1"; "EOF"] =
      "error generating csr node-1, err=EOF"
  ∧ Sprintf ByohCSRNameFormat [] = "byoh-csr-%!s(MISSING)".
Proof. by split_and!. Qed.

Lemma certTimeToExpire_value :
  Duration_mul ExpirationSeconds Second = 31536000000000000%Z.
Proof. reflexivity. Qed.

(** ** Runs of the package's functions, for any libraries *)

Section runs.
Context `{Lib} {W : Type} (h : Handler W).

Lemma exec_bind {A B : Type} (p : Prog A) (f : A → Prog B) (w : W) :
  exec h (p ≫= f) w =
    let '(a, w1, l1) := exec h p w in
    let '(b, w2, l2) := exec h (f a) w1 in
    (b, w2, l1 ++ l2).
Proof.
  revert w. induction p as [a|X e k IH]; intros w.
  - cbn. by destruct (exec h (f a) w) as [[b w2] l2].
  - cbn. destruct (h X e w) as [x w1].
    change (bind f (k x)) with (k x ≫= f). rewrite IH.
    destruct (exec h (k x) w1) as [[a w2] l1].
    by destruct (exec h (f a) w2) as [[b w3] l2].
Qed.

(** [generateCSR] makes one call, the signing of the host's template, and
    wraps what comes back in a PEM block. *)
Lemma generateCSR_run (hostname : string) (privKey : crypto_PrivateKey) (w : W) :
  exec h (generateCSR hostname privKey) w =
    let e := CreateCertificateRequest rand_Reader (csrTemplate hostname) privKey in
    let '(r, w1) := h _ e w in
    (match r with
     | Ok csrData =>
         Ok (pem_EncodeToMemory
               {| Type_ := "CERTIFICATE REQUEST"; Bytes := csrData |})
     | Err err => Err err
     end, w1, [Called e r]).
Proof.
  unfold generateCSR. rewrite Sprintf_CN. cbn.
  by destruct (h _ _ w) as [[csrData|err] w1].
Qed.

(** The runs of [RequestBYOHClientCert] on a host name that is not empty: at
    most one call of each kind, in a fixed order, and an error from any of
    them ends the run. *)
Lemma RequestBYOHClientCert_run (bcsr : ByohCSR) (hostname : string) (w : W) :
  hostname ≠ "" →
  exec h (RequestBYOHClientCert bcsr hostname) w =
    let load := LoadOrGenerateKeyFile TmpPrivateKey in
    let '(r1, w1) := h _ load w in
    match r1 with
    | Err err => (bcsr, ("", "", Some err), w1, [Called load r1])
    | Ok (keyData, _) =>
        match ParsePrivateKeyPEM keyData with
        | Err err =>
            (bcsr, ("", "", Some (Errorf
               "invalid private key for certificate request: %v" [Error err])),
             w1, [Called load r1])
        | Ok privateKey =>
            let bcsr' := {| BootstrapClient := BootstrapClient bcsr;
                            PrivateKey := keyData |} in
            let sign := CreateCertificateRequest rand_Reader (csrTemplate hostname)
                          privateKey in
            let '(r2, w2) := h _ sign w1 in
            match r2 with
            | Err err =>
                let warn := klog_Errorf (Sprintf
                  "error generating csr %s, err=%v" [hostname; Error err]) in
                let '(u, w3) := h _ warn w2 in
                (bcsr', ("", "", Some err), w3,
                 [Called load r1; Called sign r2; Called warn u])
            | Ok csrData =>
                let submit := enrollment bcsr hostname
                  (pem_EncodeToMemory
                     {| Type_ := "CERTIFICATE REQUEST"; Bytes := csrData |})
                  privateKey in
                let '(r3, w3) := h _ submit w2 in
                (bcsr',
                 match r3 with
                 | Err err => ("", "", Some err)
                 | Ok (reqName, reqUID) => (reqName, reqUID, None)
                 end, w3,
                 [Called load r1; Called sign r2; Called submit r3])
            end
        end
    end.
Proof.
  intros Hhost. unfold RequestBYOHClientCert.
  destruct (String.eqb_spec hostname "") as [|_]; [done|].
  cbn [mbind Prog_bind bind call exec].
  destruct (h _ _ w) as [[[keyData gen]|err] w1]; [|done].
  destruct (ParsePrivateKeyPEM keyData) as [privateKey|err]; [|done].
  change (bind ?f ?p) with (p ≫= f).
  rewrite exec_bind, generateCSR_run. cbn zeta.
  destruct (h _ _ w1) as [[csrData|err] w2].
  - rewrite Sprintf_Name. unfold enrollment. cbn.
    by destruct (h _ _ w2) as [[[reqName reqUID]|err] w3].
  - cbn. by destruct (h _ _ w2) as [u w3].
Qed.

(** On the empty host name the method makes no call at all. *)
Lemma RequestBYOHClientCert_run_empty (bcsr : ByohCSR) (w : W) :
  exec h (RequestBYOHClientCert bcsr "") w =
    (bcsr, ("", "", Some (errorString "hostname is not valid")), w, []).
Proof. reflexivity. Qed.

End runs.

(** ** Claims settled for any libraries *)

(** Case analysis on the answers of the handler [h] in the goal. *)
Ltac run_cases h :=
  cbn zeta;
  repeat match goal with
    | |- context [h ?X ?e ?w] => destruct (h X e w) as [? ?]
    end;
  repeat case_match; simplify_eq; cbn.

(** C2 (as amended).  For the host identifier "node-1" every CSR the method
    has signed carries the subject common name "byoh:host:node-1" with the
    organization "byoh:hosts", and every request it submits is named
    "byoh-csr-node-1"; a call that returns without error has signed one CSR
    and submitted one request. *)
Theorem node1_names `{Lib} {W : Type} (h : Handler W) (w : W)
    (bcsr : ByohCSR) :
  let '(_, (_, _, err), _, log) :=
    exec h (RequestBYOHClientCert bcsr "node-1") w in
  Forall (λ t, t = {| Subject := {| CommonName := "byoh:host:node-1";
                                    Organization := ["byoh:hosts"] |} |})
    (signings log)
  ∧ Forall (λ s, sub_name s = "byoh-csr-node-1") (submissions log)
  ∧ (err = None →
     length (signings log) = 1%nat ∧ length (submissions log) = 1%nat).
Proof.
  rewrite RequestBYOHClientCert_run by done.
  run_cases h; repeat split; try done; by repeat constructor.
Qed.

(** C5.  On an empty host identifier, whatever the key, the receiver and
    the environment, [RequestBYOHClientCert] returns the validation error
    "hostname is not valid" with an empty request name and an empty request
    ID.  It does so before any library call, so no other error can come back:
    no key is loaded, no CSR is built, nothing is submitted.  The guard is
    the only way to the CSR builder: no run, for any host identifier, ever
    asks for a signature over the empty host's common name "byoh:host:". *)
Theorem empty_hostname_rejected `{Lib} {W : Type} (h : Handler W) (w : W)
    (bcsr : ByohCSR) (hostname : string) :
  exec h (RequestBYOHClientCert bcsr "") w =
    (bcsr, ("", "", Some (errorString "hostname is not valid")), w, [])
  ∧ Forall (λ t, CommonName (Subject t) ≠ "byoh:host:")
      (signings (exec h (RequestBYOHClientCert bcsr hostname) w).2).
Proof.
  split; [done|].
  destruct (decide (hostname = "")) as [->|Hhost].
  { rewrite RequestBYOHClientCert_run_empty. constructor. }
  assert (Hcn : "byoh:host:" +:+ hostname ≠ "byoh:host:").
  { intros Heq. apply Hhost.
    by apply (inj (String.app "byoh:host:")). }
  rewrite RequestBYOHClientCert_run by done.
  run_cases h; by repeat constructor.
Qed.

(** C9.  Every enrollment request the method submits asks for a validity of
    [ExpirationSeconds] seconds, that is 86400 * 365 seconds, one year; the
    product does not overflow a [time.Duration]; and a call that returns
    without error has submitted exactly one request. *)
Theorem requested_validity_one_year `{Lib} {W : Type} (h : Handler W) (w : W)
    (bcsr : ByohCSR) (hostname : string) :
  let '(_, (_, _, err), _, log) :=
    exec h (RequestBYOHClientCert bcsr hostname) w in
  Forall (λ s, sub_requestedDuration s =
                 Some (Duration_mul ExpirationSeconds Second))
    (submissions log)
  ∧ Duration_mul ExpirationSeconds Second = (86400 * 365 * Second)%Z
  ∧ (err = None → length (submissions log) = 1%nat).
Proof.
  destruct (decide (hostname = "")) as [->|Hhost].
  { rewrite RequestBYOHClientCert_run_empty. cbn. by repeat split. }
  rewrite RequestBYOHClientCert_run by done.
  run_cases h; repeat split; try done; by repeat constructor.
Qed.

(** C6.  For every bootstrap client config (endpoint and CA trust), cert path
    and key path, the only thing [WriteKubeconfigFromBootstrapping] does is
    hand [clientcmd.WriteToFile] a config with exactly one cluster entry,
    "default-cluster", carrying the endpoint and the CA trust; exactly one
    auth entry, "default-auth", carrying the client cert and key; exactly one
    context entry, "default-context", binding the two; and current-context
    "default-context". *)
Theorem kubeconfig_entries `{Lib} {W : Type} (h : Handler W) (w : W)
    (bootstrapClientConfig : restclient_Config)
    (kubeconfigPath certData keyData : string) :
  let config := kubeconfigData bootstrapClientConfig certData keyData in
  let write := WriteToFile config kubeconfigPath in
  exec h (WriteKubeconfigFromBootstrapping bootstrapClientConfig
            kubeconfigPath certData keyData) w =
    ((h _ write w).1, (h _ write w).2, [Called write (h _ write w).1])
  ∧ map_to_list (Clusters config) =
      [("default-cluster",
        {| Server := Host bootstrapClientConfig;
           InsecureSkipTLSVerify := Insecure bootstrapClientConfig;
           CertificateAuthority := CAFile bootstrapClientConfig;
           CertificateAuthorityData :=
             if String.eqb (CAFile bootstrapClientConfig) ""
             then CAData bootstrapClientConfig else [] |})]
  ∧ map_to_list (AuthInfos config) =
      [("default-auth",
        {| ClientCertificate := certData; ClientKey := keyData |})]
  ∧ map_to_list (Contexts config) =
      [("default-context",
        {| Context_Cluster := "default-cluster";
           Context_AuthInfo := "default-auth";
           Context_Namespace := "default" |})]
  ∧ CurrentContext config = "default-context".
Proof.
  cbn zeta. split.
  { unfold WriteKubeconfigFromBootstrapping, call. cbn.
    by destruct (h _ _ w) as [err w1]. }
  unfold kubeconfigData. cbn.
  by rewrite !map_to_list_singleton.
Qed.

(** C10.  The cluster entry refers to the CA by the bootstrap config's
    [CAFile]; its inline CA data is the bootstrap config's [CAData] when
    [CAFile] is empty and is empty when [CAFile] is not: the file reference
    and the inline data are never both filled in. *)
Theorem ca_trust_source (bootstrapClientConfig : restclient_Config)
    (certData keyData : string) :
  ∃ cluster,
    Clusters (kubeconfigData bootstrapClientConfig certData keyData)
      !! "default-cluster" = Some cluster
    ∧ CertificateAuthority cluster = CAFile bootstrapClientConfig
    ∧ (CAFile bootstrapClientConfig = "" →
       CertificateAuthorityData cluster = CAData bootstrapClientConfig)
    ∧ (CAFile bootstrapClientConfig ≠ "" →
       CertificateAuthorityData cluster = [])
    ∧ (CertificateAuthority cluster = "" ∨
       CertificateAuthorityData cluster = []).
Proof.
  eexists. split; [apply lookup_singleton_eq|]. cbn.
  destruct (String.eqb_spec (CAFile bootstrapClientConfig) "") as [->|Hne];
    repeat split; auto; done.
Qed.

(** C8 (as amended).  The CSR builder makes no network call: its only
    library call is [x509.CreateCertificateRequest], on a template fixed by
    the host identifier, and it returns the PEM encoding of what that call
    returns.  Its bytes are determined by the host identifier, the key and
    what the signing reads from [rand.Reader]: invocations with the same host
    identifier, the same key and the same random bytes produce identical CSR
    bytes. *)
Theorem generateCSR_deterministic_in_rand `{Backend} {W : Type}
    (h : Handler W) (hostname : string) (privKey : crypto_PrivateKey) :
  (∀ w : W,
     let sign := CreateCertificateRequest rand_Reader
       {| Subject := {| CommonName := "byoh:host:" +:+ hostname;
                        Organization := ["byoh:hosts"] |} |} privKey in
     (exec h (generateCSR hostname privKey) w).2 =
       [Called sign (h _ sign w).1])
  ∧ (∀ w w' : World,
       rand_read w = rand_read w' →
       (exec clientgo (generateCSR hostname privKey) w).1.1 =
       (exec clientgo (generateCSR hostname privKey) w').1.1).
Proof.
  split.
  - intros w. rewrite generateCSR_run. cbn zeta. unfold csrTemplate.
    by destruct (h _ _ w) as [r w1].
  - intros w w' Hrand. rewrite !generateCSR_run. cbn. by rewrite Hrand.
Qed.

(** C4.  Whenever [RequestBYOHClientCert] returns without error, the run
    was: load the key file, sign, submit; the key that signed the submitted
    CSR is the key parsed from the bytes the key file holds, the same key is
    passed along with the submission, and the receiver's [PrivateKey] field
    holds those same bytes. *)
Theorem csr_key_is_persisted_key `{Lib} {W : Type} (h : Handler W)
    (key_file : W → option bytes) (w : W) (bcsr : ByohCSR)
    (hostname : string) (bcsr' : ByohCSR) (reqName : string) (reqUID : UID)
    (w' : W) (log : list Obs) :
  keeps_key_file h key_file →
  exec h (RequestBYOHClientCert bcsr hostname) w =
    (bcsr', (reqName, reqUID, None), w', log) →
  ∃ gen privateKey csrData,
    key_file w' = Some (PrivateKey bcsr')
    ∧ ParsePrivateKeyPEM (PrivateKey bcsr') = Ok privateKey
    ∧ log =
        [Called (LoadOrGenerateKeyFile TmpPrivateKey)
           (Ok (PrivateKey bcsr', gen));
         Called (CreateCertificateRequest rand_Reader (csrTemplate hostname)
                   privateKey)
           (Ok csrData);
         Called (enrollment bcsr hostname
                   (pem_EncodeToMemory
                      {| Type_ := "CERTIFICATE REQUEST"; Bytes := csrData |})
                   privateKey)
           (Ok (reqName, reqUID))].
Proof.
  intros (Hload & Hsign & Hsubmit) Hexec.
  destruct (decide (hostname = "")) as [->|Hhost].
  { by rewrite RequestBYOHClientCert_run_empty in Hexec. }
  rewrite RequestBYOHClientCert_run in Hexec by done. cbn zeta in Hexec.
  destruct (h _ (LoadOrGenerateKeyFile _) w)
    as [[[keyData gen]|err] w1] eqn:E1; [|done].
  destruct (ParsePrivateKeyPEM keyData) as [privateKey|err] eqn:Eparse;
    [|done].
  destruct (h _ (CreateCertificateRequest _ _ _) w1)
    as [[csrData|err] w2] eqn:E2; [|by destruct (h _ _ w2)].
  destruct (h _ (enrollment _ _ _ _) w2) as [[[rn ru]|err] w3] eqn:E3;
    [|done].
  simplify_eq. exists gen, privateKey, csrData. cbn. split_and!; [|done..].
  rewrite <- (Hload _ _ _ _ E1).
  pose proof (Hsign (csrTemplate hostname) privateKey w1) as Hs.
  rewrite E2 in Hs. cbn in Hs. rewrite <- Hs.
  apply (f_equal snd) in E3. cbn in E3. rewrite <- E3. apply Hsubmit.
Qed.

(** ** More on the runs, for any libraries *)

Lemma Sprintf_warning (hostname err : string) :
  Sprintf "error generating csr %s, err=%v" [hostname; err] =
    "error generating csr " +:+ hostname +:+ ", err=" +:+ err.
Proof.
  transitivity
    ("error generating csr " +:+ hostname +:+ ", err=" +:+ err +:+ "");
    [done|].
  by rewrite append_nil_r.
Qed.

(** X1.  Host identifiers are told apart by name: the request names of two
    hosts are equal only if the hosts are, and so are the subject common
    names; this holds of the formats and of every request submitted and every
    CSR signed in any two runs. *)
Theorem names_tell_hosts_apart `{Lib} {W1 W2 : Type} (h1 : Handler W1)
    (h2 : Handler W2) (w1 : W1) (w2 : W2) (bcsr1 bcsr2 : ByohCSR)
    (host1 host2 : string) :
  let log1 := (exec h1 (RequestBYOHClientCert bcsr1 host1) w1).2 in
  let log2 := (exec h2 (RequestBYOHClientCert bcsr2 host2) w2).2 in
  (Sprintf ByohCSRNameFormat [host1] = Sprintf ByohCSRNameFormat [host2]
   ↔ host1 = host2)
  ∧ (Sprintf ByohCSRCNFormat [host1] = Sprintf ByohCSRCNFormat [host2]
     ↔ host1 = host2)
  ∧ Forall (λ s1, Forall (λ s2, sub_name s1 = sub_name s2 ↔ host1 = host2)
                    (submissions log2)) (submissions log1)
  ∧ Forall (λ t1, Forall (λ t2, CommonName (Subject t1) =
                                  CommonName (Subject t2) ↔ host1 = host2)
                    (signings log2)) (signings log1).
Proof.
  assert (Hname : "byoh-csr-" +:+ host1 = "byoh-csr-" +:+ host2
                  ↔ host1 = host2).
  { split; [apply (inj (String.app _))|by intros ->]. }
  assert (Hcn : "byoh:host:" +:+ host1 = "byoh:host:" +:+ host2
                ↔ host1 = host2).
  { split; [apply (inj (String.app _))|by intros ->]. }
  cbn zeta. rewrite !Sprintf_Name, !Sprintf_CN.
  split; [done|]. split; [done|].
  destruct (decide (host1 = "")) as [->|Hhost1].
  { rewrite RequestBYOHClientCert_run_empty. by split; constructor. }
  destruct (decide (host2 = "")) as [->|Hhost2].
  { rewrite (RequestBYOHClientCert_run_empty h2).
    split; apply Forall_forall; intros; constructor. }
  rewrite !RequestBYOHClientCert_run by done.
  run_cases h1; run_cases h2;
    split; repeat (constructor; try done).
Qed.

Lemma Errorf_invalid_key (err : string) :
  Errorf "invalid private key for certificate request: %v" [err] =
    errorString ("invalid private key for certificate request: " +:+ err).
Proof.
  unfold Errorf. f_equal.
  transitivity
    ("invalid private key for certificate request: " +:+ err +:+ "");
    [done|].
  by rewrite append_nil_r.
Qed.

(** X2.  [RequestBYOHClientCert] never returns an error next to a request
    name or ID: with an error both are empty, also when the library answered
    the submission with an error; without an error they are the pair the
    submission, the last call of the run, answered. *)
Theorem error_or_result `{Lib} {W : Type} (h : Handler W) (w : W)
    (bcsr : ByohCSR) (hostname : string) :
  let '(_, (reqName, reqUID, err), _, log) :=
    exec h (RequestBYOHClientCert bcsr hostname) w in
  match err with
  | Some _ => reqName = "" ∧ reqUID = ""
  | None =>
      ∃ o client privateKey,
        last log = Some o
        ∧ submitted o = Some (client, privateKey, Ok (reqName, reqUID))
  end.
Proof.
  destruct (decide (hostname = "")) as [->|Hhost].
  { by rewrite RequestBYOHClientCert_run_empty. }
  rewrite RequestBYOHClientCert_run by done.
  run_cases h; try done. by eexists _, _, _.
Qed.

(** X3.  No library error is swallowed or rewrapped: when a library call of
    the run fails, its error is what the method returns, and no run has more
    than one failed call.  The errors the method returns are these library
    errors, the validation error of the empty host name, and the error for
    loaded bytes that do not parse, which prefixes the parser's message. *)
Theorem library_errors_surface `{Lib} {W : Type} (h : Handler W) (w : W)
    (bcsr : ByohCSR) (hostname : string) :
  let '(_, (_, _, err), _, log) :=
    exec h (RequestBYOHClientCert bcsr hostname) w in
  Forall (λ o, ∀ e, failure o = Some e → err = Some e) log
  ∧ match err with
    | None => omap failure log = []
    | Some e =>
        (hostname = "" ∧ log = []
         ∧ e = errorString "hostname is not valid")
        ∨ omap failure log = [e]
        ∨ ∃ keyData gen perr,
            log = [Called (LoadOrGenerateKeyFile TmpPrivateKey)
                     (Ok (keyData, gen))]
            ∧ ParsePrivateKeyPEM keyData = Err perr
            ∧ e = errorString
                ("invalid private key for certificate request: " +:+
                 Error perr)
    end.
Proof.
  destruct (decide (hostname = "")) as [->|Hhost].
  { rewrite RequestBYOHClientCert_run_empty. split; [constructor|by left]. }
  rewrite RequestBYOHClientCert_run by done.
  run_cases h; (split; [by repeat constructor|]); try done;
    try (by right; left).
  right; right. eexists _, _, _. by rewrite Errorf_invalid_key.
Qed.

(** X4.  What a call does to its receiver: the [BootstrapClient] field is
    never changed; the [PrivateKey] field is assigned only once the loaded
    bytes have parsed, so a run that ends before any signing leaves the
    receiver as it was, and in every other run, failed or not, the field
    holds the bytes the load returned, which parse. *)
Theorem receiver_update `{Lib} {W : Type} (h : Handler W) (w : W)
    (bcsr : ByohCSR) (hostname : string) :
  let '(bcsr', _, _, log) :=
    exec h (RequestBYOHClientCert bcsr hostname) w in
  BootstrapClient bcsr' = BootstrapClient bcsr
  ∧ match signings log with
    | [] => bcsr' = bcsr
    | _ :: _ =>
        ∃ gen privateKey,
          head log = Some (Called (LoadOrGenerateKeyFile TmpPrivateKey)
                             (Ok (PrivateKey bcsr', gen)))
          ∧ ParsePrivateKeyPEM (PrivateKey bcsr') = Ok privateKey
    end.
Proof.
  destruct (decide (hostname = "")) as [->|Hhost].
  { by rewrite RequestBYOHClientCert_run_empty. }
  rewrite RequestBYOHClientCert_run by done.
  run_cases h; (split; [done|]); try done; by eexists _, _.
Qed.

(** X5.  Every submission, answered with an error or not, is made through
    the receiver's [BootstrapClient], names the signer
    [KubeAPIServerClientSignerName], asks for the single usage
    [UsageClientAuth], and carries the PEM block, of type CERTIFICATE REQUEST,
    of the bytes that the signing call just before it returned for this
    host's template; the key handed over with it is the key that signed,
    parsed from the receiver's [PrivateKey]. *)
Theorem submission_parameters `{Lib} {W : Type} (h : Handler W) (w : W)
    (bcsr : ByohCSR) (hostname : string) :
  let '(bcsr', _, _, log) :=
    exec h (RequestBYOHClientCert bcsr hostname) w in
  Forall (λ o, ∀ s client privateKey r,
            submission o = Some s →
            submitted o = Some (client, privateKey, r) →
            client = BootstrapClient bcsr
            ∧ sub_signerName s = KubeAPIServerClientSignerName
            ∧ sub_usages s = [UsageClientAuth]
            ∧ ParsePrivateKeyPEM (PrivateKey bcsr') = Ok privateKey
            ∧ ∃ csrData,
                log !! 1%nat =
                  Some (Called (CreateCertificateRequest rand_Reader
                                  (csrTemplate hostname) privateKey)
                          (Ok csrData))
                ∧ sub_csrData s =
                    pem_EncodeToMemory
                      {| Type_ := CertificateRequestBlockType;
                         Bytes := csrData |}) log.
Proof.
  destruct (decide (hostname = "")) as [->|Hhost].
  { rewrite RequestBYOHClientCert_run_empty. constructor. }
  rewrite RequestBYOHClientCert_run by done.
  run_cases h; repeat (constructor; [by intros|]); try by constructor.
  all: constructor; [|by constructor].
  all: intros sub cl pk ans [= <-] [= <- <- <-]; cbn.
  all: split_and!; try done; by eexists.
Qed.

(** X6.  The calls of a run: never more than three; at most one load of the
    key, one signing and one submission; the key is always loaded from
    "byoh-client.key.tmp", whatever the host identifier; and a line is logged
    exactly when the signing failed, naming the host and the error, in which
    case nothing is submitted. *)
Theorem call_discipline `{Lib} {W : Type} (h : Handler W) (w : W)
    (bcsr : ByohCSR) (hostname : string) :
  let '(_, _, _, log) := exec h (RequestBYOHClientCert bcsr hostname) w in
  (length log ≤ 3)%nat
  ∧ omap loaded_path log =
      (if String.eqb hostname "" then [] else ["byoh-client.key.tmp"])
  ∧ (length (signings log) ≤ 1)%nat
  ∧ (length (submissions log) ≤ 1)%nat
  ∧ omap logged log =
      omap (λ o, match signed o with
                 | Some (_, Err err) =>
                     Some ("error generating csr " +:+ hostname +:+
                           ", err=" +:+ Error err)
                 | _ => None
                 end) log
  ∧ match omap logged log with
    | [] => True
    | _ :: _ => submissions log = []
    end.
Proof.
  destruct (decide (hostname = "")) as [->|Hhost].
  { rewrite RequestBYOHClientCert_run_empty. cbn. split_and!; done || lia. }
  rewrite RequestBYOHClientCert_run by done.
  destruct (String.eqb_spec hostname "") as [|_]; [done|].
  run_cases h; split_and!; try (done || lia).
  cbn in *. simplify_eq. f_equal. exact (Sprintf_warning _ _).
Qed.

(** X7.  The kubeconfig that is written resolves: its current context is
    one of its contexts, and that context's cluster and user are entries of
    the config, the cluster being the bootstrap config's endpoint, with its
    TLS-verification setting, and the user holding the given client
    certificate and key; the context's namespace is "default". *)
Theorem kubeconfig_resolves (bootstrapClientConfig : restclient_Config)
    (certData keyData : string) :
  let config := kubeconfigData bootstrapClientConfig certData keyData in
  ∃ context cluster auth,
    Contexts config !! CurrentContext config = Some context
    ∧ Clusters config !! Context_Cluster context = Some cluster
    ∧ AuthInfos config !! Context_AuthInfo context = Some auth
    ∧ Context_Namespace context = "default"
    ∧ Server cluster = Host bootstrapClientConfig
    ∧ InsecureSkipTLSVerify cluster = Insecure bootstrapClientConfig
    ∧ ClientCertificate auth = certData
    ∧ ClientKey auth = keyData.
Proof.
  cbn zeta. eexists _, _, _. unfold kubeconfigData. cbn.
  split; [apply lookup_singleton_eq|]. cbn.
  split; [apply lookup_singleton_eq|].
  split; [apply lookup_singleton_eq|]. done.
Qed.

(** ** The file system *)

Lemma foldl_WriteByte (name : string) (data acc : bytes)
    (fs : gmap string bytes) :
  foldl fs_step (<[name := acc]> fs) (WriteByte name <$> data) =
    <[name := acc ++ data]> fs.
Proof.
  revert acc. induction data as [|b data IH]; intros acc; cbn.
  - by rewrite app_nil_r.
  - by rewrite alter_insert_eq, IH, <- app_assoc.
Qed.

(** A write that runs to its end leaves the file holding the new bytes. *)
Lemma os_WriteFile_insert (name : string) (data : bytes)
    (fs : gmap string bytes) :
  os_WriteFile name data fs = <[name := data]> fs.
Proof. unfold os_WriteFile. cbn. apply (foldl_WriteByte name data []). Qed.

(** A write cut short leaves the file as it was, if nothing was done yet, or
    holding the bytes written so far. *)
Lemma interrupted_os_WriteFile (n : nat) (name : string) (data : bytes)
    (fs : gmap string bytes) :
  interrupted n (os_WriteFile_ops name data) fs =
    match n with
    | O => fs
    | S k => <[name := take k data]> fs
    end.
Proof.
  destruct n as [|k]; [done|].
  unfold interrupted, os_WriteFile_ops. cbn [take foldl fs_step].
  rewrite <- fmap_take. apply (foldl_WriteByte name (take k data) []).
Qed.

Lemma interrupted_all (ops : list fsop) (fs : gmap string bytes) :
  interrupted (length ops) ops fs = foldl fs_step fs ops.
Proof. unfold interrupted. by rewrite take_ge. Qed.

(** Whatever the operating system does to a write, and wherever it is cut
    short, the files are as before or the file holds a prefix of the new
    bytes. *)
Lemma interrupted_os_WriteFile_done (n : nat) (fault : option os_fault)
    (name : string) (data : bytes) (fs : gmap string bytes) :
  interrupted n (os_WriteFile_done fault name data) fs = fs
  ∨ ∃ k, interrupted n (os_WriteFile_done fault name data) fs =
           <[name := take k data]> fs.
Proof.
  assert (Hfull : ∀ m, interrupted m (os_WriteFile_ops name data) fs = fs
                       ∨ ∃ k, interrupted m (os_WriteFile_ops name data) fs =
                                <[name := take k data]> fs).
  { intros m. rewrite interrupted_os_WriteFile.
    destruct m as [|k]; [by left|right; by exists k]. }
  unfold os_WriteFile_done.
  destruct (String.eqb name ""); [left; by destruct n|].
  destruct fault as [[err|written err]|]; [left; by destruct n| |done].
  unfold interrupted. rewrite take_take. apply Hfull.
Qed.

(** A write the operating system does not fail leaves the new bytes. *)
Lemma os_WriteFile_done_ok (fault : option os_fault) (name : string)
    (data : bytes) (fs : gmap string bytes) :
  os_WriteFile_error fault name = None →
  foldl fs_step fs (os_WriteFile_done fault name data) = <[name := data]> fs.
Proof.
  unfold os_WriteFile_error, os_WriteFile_done.
  destruct (String.eqb name ""); [done|].
  destruct fault as [[err|written err]|]; [done..|].
  intros _. apply os_WriteFile_insert.
Qed.

(** ** Runs against client-go *)

Section clientgo.
Context `{Backend}.

(** C7 (as amended).  [WriteKubeconfigFromBootstrapping] makes a single
    call, [clientcmd.WriteToFile] on the config and the target path itself,
    and returns what it returns; no temporary location and no rename are
    involved.  With client-go the target is written in place.  When the
    serializer fails, its error is returned and no file is touched.
    Otherwise a call that returns no error leaves the target holding the
    serialized config; a call that returns an error leaves the files as they
    were or the target holding only a prefix of the new content; and so does
    a call interrupted after any number of steps. *)
Theorem kubeconfig_written_in_place {W : Type} (h : Handler W) (w0 : W)
    (w : World) (bootstrapClientConfig : restclient_Config)
    (kubeconfigPath certData keyData : string) :
  let config := kubeconfigData bootstrapClientConfig certData keyData in
  let write := WriteToFile config kubeconfigPath in
  let ops := clientcmd_WriteToFile_ops config kubeconfigPath in
  exec h (WriteKubeconfigFromBootstrapping bootstrapClientConfig
            kubeconfigPath certData keyData) w0 =
    ((h _ write w0).1, (h _ write w0).2, [Called write (h _ write w0).1])
  ∧ let '(err, w', log) :=
      exec clientgo (WriteKubeconfigFromBootstrapping bootstrapClientConfig
                       kubeconfigPath certData keyData) w in
    log = [Called write err]
    ∧ files w' = interrupted (length ops) ops (files w)
    ∧ match clientcmd_Write config with
      | Err e => err = Some e ∧ files w' = files w
      | Ok content =>
          match err with
          | None => files w' = <[kubeconfigPath := content]> (files w)
          | Some _ =>
              files w' = files w
              ∨ ∃ k, files w' =
                       <[kubeconfigPath := take k content]> (files w)
          end
          ∧ ∀ n,
              interrupted n ops (files w) = files w
              ∨ ∃ k, interrupted n ops (files w) =
                       <[kubeconfigPath := take k content]> (files w)
      end.
Proof.
  cbn zeta. split.
  { unfold WriteKubeconfigFromBootstrapping, call. cbn.
    by destruct (h _ _ w0) as [err w1]. }
  unfold WriteKubeconfigFromBootstrapping, call. cbn.
  unfold clientcmd_WriteToFile, clientcmd_WriteToFile_ops.
  destruct (clientcmd_Write _) as [content|e]; [|done].
  cbn zeta. unfold set_files. cbn [files].
  set (fault := os_WriteFile_fault kubeconfigPath content).
  split; [done|]. split; [by rewrite interrupted_all|]. split.
  - destruct (os_WriteFile_error fault kubeconfigPath) as [err|] eqn:Herr.
    + rewrite <- interrupted_all. apply interrupted_os_WriteFile_done.
    + by apply os_WriteFile_done_ok.
  - intros n. apply interrupted_os_WriteFile_done.
Qed.

Lemma csr_RequestCertificate_files (csrData : bytes)
    (name signerName : string) (d : option Duration) (usages : list KeyUsage)
    (w : World) :
  files (csr_RequestCertificate csrData name signerName d usages w).2 =
    files w.
Proof.
  unfold csr_RequestCertificate.
  destruct (reachable w); [|done]. by destruct (requests w !! name).
Qed.

(** A request whose name exists is reused: nothing changes. *)
Lemma csr_RequestCertificate_existing (csrData : bytes)
    (name signerName : string) (d : option Duration) (usages : list KeyUsage)
    (w : World) (req : CertificateSigningRequest) :
  reachable w = true →
  requests w !! name = Some req →
  csr_RequestCertificate csrData name signerName d usages w =
    (Ok (ObjectMeta_Name req, ObjectMeta_UID req), w).
Proof. intros Hreach Hreq. unfold csr_RequestCertificate. by rewrite Hreach, Hreq. Qed.

(** client-go keeps the key file as the method needs it. *)
Lemma clientgo_keeps_key_file :
  keeps_key_file clientgo (λ w, files w !! TmpPrivateKey).
Proof.
  split_and!.
  - intros w keyData gen w1. cbn. unfold keyutil_LoadOrGenerateKeyFile.
    destruct (files w !! TmpPrivateKey) as [loadedData|] eqn:Hfile.
    + destruct (verifyKeyData loadedData); intros; by simplify_eq.
    + destruct (MakeEllipticPrivateKeyPEM _); intros; simplify_eq.
      unfold set_files. cbn [files].
      rewrite os_WriteFile_insert. apply lookup_insert_eq.
  - done.
  - intros client csrData name signerName d usages privateKey w. cbn.
    by rewrite csr_RequestCertificate_files.
Qed.

(** C3 (as amended).  Key provisioning in [RequestBYOHClientCert] on a host
    name that is not empty.  The method asks [keyutil.LoadOrGenerateKeyFile]
    once for the key; an error from it, or bytes from it that do not parse,
    end the call with an error and an empty request name and ID, whatever the
    libraries do.  With client-go: when the key file exists and parses, its
    bytes are returned and used unchanged and the file is left alone; when
    the file is missing, a new key is generated, persisted and returned; when
    the file exists but does not parse, nothing is regenerated: the call
    fails with the loading error, and the world, the key file included, is as
    before. *)
Theorem key_file_provisioning {W : Type} (h : Handler W) (w0 : W)
    (w : World) (bcsr : ByohCSR) (hostname : string) :
  hostname ≠ "" →
  let load := LoadOrGenerateKeyFile TmpPrivateKey in
  (let '(r1, w1) := h _ load w0 in
   match r1 with
   | Err err =>
       exec h (RequestBYOHClientCert bcsr hostname) w0 =
         (bcsr, ("", "", Some err), w1, [Called load r1])
   | Ok (keyData, _) =>
       match ParsePrivateKeyPEM keyData with
       | Err err =>
           exec h (RequestBYOHClientCert bcsr hostname) w0 =
             (bcsr, ("", "", Some (Errorf
                "invalid private key for certificate request: %v"
                [Error err])), w1, [Called load r1])
       | Ok _ =>
           head (exec h (RequestBYOHClientCert bcsr hostname) w0).2 =
             Some (Called load r1)
       end
   end)
  ∧ let '(bcsr', (reqName, reqUID, err), w', log) :=
      exec clientgo (RequestBYOHClientCert bcsr hostname) w in
    match files w !! TmpPrivateKey with
    | Some data =>
        files w' = files w
        ∧ (if verifyKeyData data
           then head log = Some (Called load (Ok (data, false)))
                ∧ PrivateKey bcsr' = data
           else bcsr' = bcsr ∧ reqName = "" ∧ reqUID = ""
                ∧ err = Some (errorString
                    "error loading key from byoh-client.key.tmp: <nil>")
                ∧ w' = w)
    | None =>
        match MakeEllipticPrivateKeyPEM (rand_read w) with
        | Ok generated =>
            files w' = <[TmpPrivateKey := generated]> (files w)
            ∧ head log = Some (Called load (Ok (generated, true)))
        | Err e =>
            files w' = files w ∧ reqName = "" ∧ reqUID = ""
            ∧ err = Some (Errorf "error generating key: %v" [Error e])
        end
    end.
Proof.
  intros Hhost. cbn zeta. split.
  { rewrite RequestBYOHClientCert_run by done. cbn zeta.
    destruct (h _ _ w0) as [[[keyData gen]|err] w1]; [|done].
    destruct (ParsePrivateKeyPEM keyData) as [privateKey|err]; [|done].
    destruct (h _ _ w1) as [[csrData|err] w2].
    - by destruct (h _ _ w2) as [r3 w3].
    - by destruct (h _ _ w2) as [u w3]. }
  rewrite RequestBYOHClientCert_run by done.
  cbn -[Errorf csrTemplate enrollment os_WriteFile].
  unfold keyutil_LoadOrGenerateKeyFile.
  destruct (files w !! TmpPrivateKey) as [data|] eqn:Hfile.
  - destruct (verifyKeyData data) eqn:Hverify; [|done].
    unfold verifyKeyData in Hverify.
    destruct data as [|b data]; [done|].
    destruct (ParsePrivateKeyPEM (b :: data)) as [privateKey|?]; [|done].
    destruct (x509_CreateCertificateRequest _ _ _) as [csrData|?]; [|done].
    unfold enrollment. cbn -[csr_RequestCertificate csrTemplate].
    match goal with
    | |- context [csr_RequestCertificate ?a ?b ?c ?d ?e ?f] =>
        pose proof (csr_RequestCertificate_files a b c d e f) as Hfiles;
        destruct (csr_RequestCertificate a b c d e f) as [r3 w3]
    end.
    by destruct r3 as [[? ?]|?].
  - destruct (MakeEllipticPrivateKeyPEM _) as [generated|e]; [|done].
    rewrite os_WriteFile_insert.
    destruct (ParsePrivateKeyPEM generated) as [privateKey|?]; [|done].
    cbn -[Errorf csrTemplate enrollment].
    destruct (x509_CreateCertificateRequest _ _ _) as [csrData|?]; [|done].
    unfold enrollment. cbn -[csr_RequestCertificate csrTemplate].
    match goal with
    | |- context [csr_RequestCertificate ?a ?b ?c ?d ?e ?f] =>
        pose proof (csr_RequestCertificate_files a b c d e f) as Hfiles;
        destruct (csr_RequestCertificate a b c d e f) as [r3 w3]
    end.
    by destruct r3 as [[? ?]|?].
Qed.

Lemma keyutil_LoadOrGenerateKeyFile_requests (keyPath : string)
    (w : World) :
  requests (keyutil_LoadOrGenerateKeyFile keyPath w).2 = requests w.
Proof.
  unfold keyutil_LoadOrGenerateKeyFile.
  destruct (files w !! keyPath) as [data|].
  - by destruct (verifyKeyData data).
  - by destruct (MakeEllipticPrivateKeyPEM _).
Qed.

(** What a call that returned without error leaves behind. *)
Lemma clientgo_success (w : World) (bcsr : ByohCSR) (hostname : string)
    (bcsr1 : ByohCSR) (reqName : string) (reqUID : UID) (w1 : World)
    (log1 : list Obs) :
  exec clientgo (RequestBYOHClientCert bcsr hostname) w =
    (bcsr1, (reqName, reqUID, None), w1, log1) →
  hostname ≠ ""
  ∧ ∃ privateKey r req,
      files w1 !! TmpPrivateKey = Some (PrivateKey bcsr1)
      ∧ ParsePrivateKeyPEM (PrivateKey bcsr1) = Ok privateKey
      ∧ is_Ok (x509_CreateCertificateRequest r (csrTemplate hostname)
                 privateKey)
      ∧ reachable w1 = true
      ∧ requests w1 !! ("byoh-csr-" +:+ hostname) = Some req
      ∧ ObjectMeta_Name req = reqName
      ∧ ObjectMeta_UID req = reqUID
      ∧ (requests w1 = requests w
         ∨ requests w !! ("byoh-csr-" +:+ hostname) = None
           ∧ requests w1 =
               <["byoh-csr-" +:+ hostname := req]> (requests w)).
Proof.
  intros Hexec.
  destruct (decide (hostname = "")) as [->|Hhost]; [done|].
  split; [done|].
  pose proof clientgo_keeps_key_file as (Hload & _ & _).
  rewrite RequestBYOHClientCert_run in Hexec by done. cbn zeta in Hexec.
  pose proof (keyutil_LoadOrGenerateKeyFile_requests TmpPrivateKey w)
    as Hrequests.
  change (keyutil_LoadOrGenerateKeyFile TmpPrivateKey w) with
    (clientgo _ (LoadOrGenerateKeyFile TmpPrivateKey) w) in Hrequests.
  destruct (clientgo _ (LoadOrGenerateKeyFile _) w)
    as [[[keyData gen]|err] w0] eqn:E1; [|done].
  apply Hload in E1. cbn in Hrequests.
  destruct (ParsePrivateKeyPEM keyData) as [privateKey|err] eqn:Eparse;
    [|done].
  cbn -[csrTemplate] in Hexec.
  destruct (x509_CreateCertificateRequest (rand_read w0) _ privateKey)
    as [csrData|err] eqn:Esign; [|done].
  unfold csr_RequestCertificate in Hexec. cbn -[csrTemplate] in Hexec.
  destruct (reachable w0) eqn:Hreach; [|done].
  exists privateKey, (rand_read w0).
  destruct (requests w0 !! _) as [req|] eqn:Hreq; simplify_eq; cbn.
  - exists req. rewrite Esign. split_and!; try done. by left.
  - eexists. rewrite Esign, lookup_insert_eq. split_and!; try done.
    right. by rewrite <- Hrequests.
Qed.

Lemma verifyKeyData_parsed (data : bytes) (privateKey : crypto_PrivateKey) :
  (∀ k, ParsePrivateKeyPEM [] ≠ Ok k) →
  ParsePrivateKeyPEM data = Ok privateKey → verifyKeyData data = true.
Proof.
  intros Hnil Hparse. unfold verifyKeyData.
  destruct data as [|b data]; [by destruct (Hnil privateKey)|].
  by rewrite Hparse.
Qed.

(** C1.  Once [RequestBYOHClientCert] has returned without error for a host,
    the CA holds, under the name "byoh-csr-" followed by the host identifier,
    a request with the returned name and ID, and the call created at most
    that one request.  A second call for the same host with the same key
    file submits again under that name, is answered with the existing
    resource, and returns the same request name and the same request ID; no
    duplicate is created: the set of requests is as the first call left it,
    and so are the key file and the count of created objects.  The second
    caller uses the key of the first.  (Parsing empty data fails, and whether
    a signature can be made does not depend on the random bytes.) *)
Theorem submit_idempotent (w : World) (bcsr bcsr2 : ByohCSR)
    (hostname : string) (bcsr1 : ByohCSR) (reqName : string) (reqUID : UID)
    (w1 : World) (log1 : list Obs) :
  (∀ privateKey, ParsePrivateKeyPEM [] ≠ Ok privateKey) →
  (∀ r r' template priv,
     is_Ok (x509_CreateCertificateRequest r template priv) →
     is_Ok (x509_CreateCertificateRequest r' template priv)) →
  exec clientgo (RequestBYOHClientCert bcsr hostname) w =
    (bcsr1, (reqName, reqUID, None), w1, log1) →
  ∃ w2 log2 req privateKey csrData,
    exec clientgo (RequestBYOHClientCert bcsr2 hostname) w1 =
      ({| BootstrapClient := BootstrapClient bcsr2;
          PrivateKey := PrivateKey bcsr1 |},
       (reqName, reqUID, None), w2, log2)
    ∧ requests w1 !! ("byoh-csr-" +:+ hostname) = Some req
    ∧ ObjectMeta_Name req = reqName
    ∧ ObjectMeta_UID req = reqUID
    ∧ (requests w1 = requests w
       ∨ requests w !! ("byoh-csr-" +:+ hostname) = None
         ∧ requests w1 = <["byoh-csr-" +:+ hostname := req]> (requests w))
    ∧ ParsePrivateKeyPEM (PrivateKey bcsr1) = Ok privateKey
    ∧ last log2 =
        Some (Called (enrollment bcsr2 hostname csrData privateKey)
                (Ok (reqName, reqUID)))
    ∧ requests w2 = requests w1
    ∧ created w2 = created w1
    ∧ files w2 = files w1.
Proof.
  intros Hnil Hsign Hexec.
  apply clientgo_success in Hexec
    as (Hhost & privateKey & r & req & Hfile & Hparse & Hok & Hreach & Hreq
        & <- & <- & Hone).
  rewrite RequestBYOHClientCert_run by done.
  cbn -[csrTemplate enrollment]. unfold keyutil_LoadOrGenerateKeyFile.
  rewrite Hfile, (verifyKeyData_parsed _ _ Hnil Hparse), Hparse.
  cbn -[csrTemplate enrollment].
  specialize (Hsign r (rand_read w1) _ _ Hok).
  destruct (x509_CreateCertificateRequest (rand_read w1) _ privateKey)
    as [csrData|err]; [|done].
  unfold enrollment. cbn -[csrTemplate csr_RequestCertificate].
  rewrite (csr_RequestCertificate_existing _ _ _ _ _ _ req) by done.
  by eexists _, _, req, privateKey, _.
Qed.

End clientgo.

(** ** The model at work *)

Import fake.

(** On a fresh host, enrolling "node-1" signs a CSR for the common name
    "byoh:host:node-1", not "identity:host:node-1", and the request it
    creates is "byoh-csr-node-1"; there is no request "enroll-node-1". *)
Lemma node1_names_counterexample :
  let '(_, (reqName, _, err), w', log) :=
    exec clientgo (RequestBYOHClientCert agent "node-1") world0 in
  err = None
  ∧ (CommonName ∘ Subject <$> signings log) = ["byoh:host:node-1"]
  ∧ "byoh:host:node-1" ≠ "identity:host:node-1"
  ∧ reqName = "byoh-csr-node-1"
  ∧ reqName ≠ "enroll-node-1"
  ∧ ObjectMeta_Name <$> requests w' !! "byoh-csr-node-1" =
      Some "byoh-csr-node-1"
  ∧ requests w' !! "enroll-node-1" = None.
Proof. vm_compute. by split_and!. Qed.

(** A key file that does not parse is a hard failure: the call returns the
    loading error and nothing is regenerated, submitted or changed. *)
Lemma unparsable_key_file_counterexample :
  files corrupt !! TmpPrivateKey = Some (text "garbage")
  ∧ verifyKeyData (text "garbage") = false
  ∧ exec clientgo (RequestBYOHClientCert agent "node-1") corrupt =
      (agent,
       ("", "", Some (errorString
          "error loading key from byoh-client.key.tmp: <nil>")),
       corrupt,
       [Called (LoadOrGenerateKeyFile TmpPrivateKey)
          (Err (errorString
             "error loading key from byoh-client.key.tmp: <nil>"))]).
Proof. by split_and!. Qed.

(** Writing the kubeconfig over an existing one: cut short after the first
    step the file is empty, after nine steps it holds eight bytes of the new
    content; neither is the prior file or the new one.  On a disk that fills
    up the call runs to its end, returns the error and leaves those eight
    bytes. *)
Lemma interrupted_write_counterexample :
  let ops :=
    clientcmd_WriteToFile_ops
      (kubeconfigData bootstrap "client.crt" "client.key") kubeconfig in
  let new := text "current-context: default-context" in
  files installed !! kubeconfig = Some (text "old")
  ∧ interrupted (length ops) ops (files installed) !! kubeconfig = Some new
  ∧ interrupted 1 ops (files installed) !! kubeconfig = Some []
  ∧ interrupted 9 ops (files installed) !! kubeconfig = Some (text "current-")
  ∧ (¬ ∀ n,
         interrupted n ops (files installed) !! kubeconfig =
           Some (text "old")
         ∨ interrupted n ops (files installed) !! kubeconfig = Some new)
  ∧ let '(err, w', _) :=
      exec (@clientgo lib disk_full)
        (WriteKubeconfigFromBootstrapping bootstrap kubeconfig
           "client.crt" "client.key") installed in
    err = Some (errorString
      "write /root/.byoh/config: no space left on device")
    ∧ files w' !! kubeconfig = Some (text "current-").
Proof.
  cbn zeta. split_and!; try reflexivity.
  - intros Hall. by destruct (Hall 1%nat) as [Hold|Hnew]; vm_compute in *.
  - vm_compute. by split.
Qed.

(** Two invocations of the builder on the same host identifier and key, one
    after the other, both succeed and return different bytes. *)
Lemma generateCSR_counterexample :
  let '(csr1, w1, _) := exec clientgo (generateCSR "node-1" (text "7")) world0 in
  let '(csr2, _, _) := exec clientgo (generateCSR "node-1" (text "7")) w1 in
  is_Ok csr1 ∧ is_Ok csr2 ∧ csr1 ≠ csr2.
Proof. vm_compute. by split_and!. Qed.

(** Enrolling "node-1" a second time on the host the first run left. *)
Lemma submit_idempotent_witness :
  ∃ w2 log2 req privateKey csrData,
    exec clientgo (RequestBYOHClientCert agent "node-1") world1 =
      ({| BootstrapClient := BootstrapClient agent;
          PrivateKey := PrivateKey agent1 |},
       ("byoh-csr-node-1", "uid-0", None), w2, log2)
    ∧ requests world1 !! ("byoh-csr-" +:+ "node-1") = Some req
    ∧ ObjectMeta_Name req = "byoh-csr-node-1"
    ∧ ObjectMeta_UID req = "uid-0"
    ∧ (requests world1 = requests world0
       ∨ requests world0 !! ("byoh-csr-" +:+ "node-1") = None
         ∧ requests world1 =
             <["byoh-csr-" +:+ "node-1" := req]> (requests world0))
    ∧ ParsePrivateKeyPEM (PrivateKey agent1) = Ok privateKey
    ∧ last log2 =
        Some (Called (enrollment agent "node-1" csrData privateKey)
                (Ok ("byoh-csr-node-1", "uid-0")))
    ∧ requests w2 = requests world1
    ∧ created w2 = created world1
    ∧ files w2 = files world1.
Proof.
  apply (submit_idempotent world0 agent agent "node-1" agent1
           "byoh-csr-node-1" "uid-0" world1 log1).
  - intros privateKey. discriminate.
  - intros r r' template priv. by destruct priv.
  - reflexivity.
Defined.

(** Enrolling "node-1" with a corrupt key file, and with none. *)
Lemma key_file_provisioning_witness :
  "node-1" ≠ ""
  ∧ exec clientgo (RequestBYOHClientCert agent "node-1") corrupt =
      (agent,
       ("", "", Some (errorString
          "error loading key from byoh-client.key.tmp: <nil>")),
       corrupt,
       [Called (LoadOrGenerateKeyFile TmpPrivateKey)
          (Err (errorString
             "error loading key from byoh-client.key.tmp: <nil>"))])
  ∧ let '(_, _, w', log) :=
      exec clientgo (RequestBYOHClientCert agent "node-1") world0 in
    files w' = <[TmpPrivateKey := text "KEY:7"]> (files world0)
    ∧ head log = Some (Called (LoadOrGenerateKeyFile TmpPrivateKey)
                         (Ok (text "KEY:7", true))).
Proof.
  split; [discriminate|].
  exact (key_file_provisioning clientgo corrupt world0 agent "node-1"
           ltac:(discriminate)).
Defined.

(** The first enrollment of "node-1" on a fresh host. *)
Lemma csr_key_is_persisted_key_witness :
  ∃ gen privateKey csrData,
    files world1 !! TmpPrivateKey = Some (PrivateKey agent1)
    ∧ ParsePrivateKeyPEM (PrivateKey agent1) = Ok privateKey
    ∧ log1 =
        [Called (LoadOrGenerateKeyFile TmpPrivateKey)
           (Ok (PrivateKey agent1, gen));
         Called (CreateCertificateRequest rand_Reader (csrTemplate "node-1")
                   privateKey)
           (Ok csrData);
         Called (enrollment agent "node-1"
                   (pem_EncodeToMemory
                      {| Type_ := "CERTIFICATE REQUEST"; Bytes := csrData |})
                   privateKey)
           (Ok ("byoh-csr-node-1", "uid-0"))].
Proof.
  apply (csr_key_is_persisted_key clientgo (λ w, files w !! TmpPrivateKey)
           world0 agent "node-1" agent1 "byoh-csr-node-1" "uid-0" world1 log1).
  - apply clientgo_keeps_key_file.
  - reflexivity.
Defined.

(** The empty target path: the open fails, the error comes back and no file
    is touched. *)
Example kubeconfig_empty_path :
  exec clientgo (WriteKubeconfigFromBootstrapping bootstrap ""
                   "client.crt" "client.key") installed =
    (Some (errorString "open : no such file or directory"), installed,
     [Called (WriteToFile (kubeconfigData bootstrap "client.crt" "client.key")
                "")
        (Some (errorString "open : no such file or directory"))]).
Proof. reflexivity. Qed.
